(** * webapp/app.py: the status web application, embedded in Rocq

    The program is a thin layer over operating-system queries.  Every query
    of the outside world (spawning a shell command, reading a file, asking
    the platform for its name, its load or the time) is a field of an
    environment record [env]; the functions of [app.py] are functions of that
    environment, in the order and with the defaults the source gives them.
    A Python exception is the [Raise] case of [result]. *)

From Stdlib Require Import List NArith ZArith Bool String Ascii Lia.
From Stdlib Require Import SpecFloat.
Import ListNotations.

Set Warnings "-register-all".

(** ** Python text *)

(** A Python [str] is a sequence of Unicode code points. *)
Definition codepoint := N.
Definition str := list codepoint.

(** A string literal of the source (all of them are ASCII). *)
Definition lit (s : string) : str :=
  map N_of_ascii (list_ascii_of_string s).

Definition LF : codepoint := 10%N.

(** [a == b] on two strings. *)
Fixpoint str_eqb (a b : str) : bool :=
  match a, b with
  | [], [] => true
  | x :: a', y :: b' => (x =? y)%N && str_eqb a' b'
  | _, _ => false
  end.

(** [str.isspace] on one character: the code points Python strips when
    [strip] is called without an argument. *)
Definition isspace (c : codepoint) : bool :=
  (((9 <=? c) && (c <=? 13))                 (* \t \n \v \f \r *)
   || ((28 <=? c) && (c <=? 32))             (* FS GS RS US and the space *)
   || (c =? 133) || (c =? 160)               (* NEL, no-break space *)
   || (c =? 5760)                            (* U+1680 *)
   || ((8192 <=? c) && (c <=? 8202))         (* U+2000 .. U+200A *)
   || (c =? 8232) || (c =? 8233)             (* U+2028, U+2029 *)
   || (c =? 8239) || (c =? 8287)             (* U+202F, U+205F *)
   || (c =? 12288))%N.                       (* U+3000 *)

Fixpoint lstrip (s : str) : str :=
  match s with
  | [] => []
  | c :: s' => if isspace c then lstrip s' else s
  end.

Definition rstrip (s : str) : str := rev (lstrip (rev s)).

(** [s.strip()] *)
Definition strip (s : str) : str := rstrip (lstrip s).

(** Python's order on [str]: lexicographic on code points. *)
Fixpoint str_compare (a b : str) : comparison :=
  match a, b with
  | [], [] => Eq
  | [], _ :: _ => Lt
  | _ :: _, [] => Gt
  | x :: a', y :: b' =>
      match (x ?= y)%N with
      | Eq => str_compare a' b'
      | c => c
      end
  end.

(** ** Exceptions and results *)

(** The exceptions the modelled calls raise.  Each is a subclass of Python's
    [Exception], which is what the handlers of [app.py] catch. *)
Inductive exn : Type :=
| TimeoutExpired
| FileNotFoundError
| PermissionError
| OSError
| UnicodeDecodeError
| AttributeError
| OtherException (name : string).

Inductive result (A : Type) : Type :=
| Ok (a : A)
| Raise (e : exn).

Arguments Ok {A} a.
Arguments Raise {A} e.

Definition bind {A B : Type} (x : result A) (f : A -> result B) : result B :=
  match x with
  | Ok a => f a
  | Raise e => Raise e
  end.

Notation "x <- c ;; k" := (bind c (fun x => k))
  (at level 61, c at next level, right associativity).

(** [try: body / except Exception: return d] *)
Definition try_except {A : Type} (body : result A) (d : A) : A :=
  match body with
  | Ok a => a
  | Raise _ => d
  end.

(** ** Python values *)

(** The values the handlers put in their responses. *)
Inductive value : Type :=
| VNone
| VBool (b : bool)
| VInt (n : Z)
| VFloat (f : spec_float)
| VStr (s : str)
| VTuple (l : list value)
| VDict (d : list (str * value)).

(** A dict display [{k1: v1, ...}] with distinct keys, in insertion order. *)
Definition dict := list (str * value).

Definition keys (d : dict) : list str := map fst d.

Fixpoint dict_get (k : str) (d : dict) : option value :=
  match d with
  | [] => None
  | (k', v) :: d' => if str_eqb k k' then Some v else dict_get k d'
  end.

(** Python's truth value of an object. *)
Definition truthy (x : value) : bool :=
  match x with
  | VNone => false
  | VBool b => b
  | VInt n => negb (n =? 0)%Z
  | VFloat (S754_zero _) => false
  | VFloat _ => true
  | VStr [] | VTuple [] | VDict [] => false
  | VStr _ | VTuple _ | VDict _ => true
  end.

(** [x or d] *)
Definition py_or (x d : value) : value := if truthy x then x else d.

(** ** The environment *)

(** What a shell command does once the program asks to run it. *)
Inductive proc_behaviour : Type :=
| Fails (e : exn)
    (* the call itself raises: the shell cannot be spawned, the output
       cannot be decoded as text *)
| Hangs
    (* the process never exits by itself *)
| Exits (elapsed_ms : N) (returncode : Z) (stdout : str).
    (* the process exits after [elapsed_ms] milliseconds; a command the
       shell does not find is an exit with code 127 *)

Record CompletedProcess : Type := {
  returncode : Z;
  stdout : str
}.

(** [datetime]: a naive local date and time. *)
Record datetime : Type := {
  year : N;
  month : N;
  day : N;
  hour : N;
  minute : N;
  second : N;
  microsecond : N
}.

Record env : Type := {
  proc : str -> proc_behaviour;           (* the shell commands *)
  read_text : str -> result str;          (* open(path, "r") and f.read() *)
  path_exists : str -> bool;              (* os.path.exists *)
  gethostname : str;                      (* socket.gethostname() *)
  platform_system : str;                  (* platform.system() *)
  platform_release : str;                 (* platform.release() *)
  platform_machine : str;                 (* platform.machine() *)
  platform_python_version : str;          (* platform.python_version() *)
  getloadavg : result (spec_float * spec_float * spec_float);
                                          (* os.getloadavg(): raises OSError
                                             when the load is unobtainable *)
  cpu_count : option Z;                   (* os.cpu_count(): None when
                                             undetermined *)
  now : datetime                          (* datetime.now() *)
}.

(** [subprocess.run(cmd, shell=True, capture_output=True, text=True,
    timeout=t)], [t] in seconds: a process that has not exited when the
    timeout expires is killed and [TimeoutExpired] is raised. *)
Definition subprocess_run (e : env) (cmd : str) (timeout : N)
  : result CompletedProcess :=
  match proc e cmd with
  | Fails x => Raise x
  | Hangs => Raise TimeoutExpired
  | Exits ms rc out =>
      if (ms <=? 1000 * timeout)%N
      then Ok {| returncode := rc; stdout := out |}
      else Raise TimeoutExpired
  end.

(** ** The functions of [app.py] *)

(** [run_command]: the trimmed output, or [None]. *)
Definition run_command (e : env) (cmd : str) : value :=
  try_except
    (result_ <- subprocess_run e cmd 5 ;;
     Ok (if (returncode result_ =? 0)%Z
         then VStr (strip (stdout result_))
         else VNone))
    VNone.

Definition fips_file : str := lit "/proc/sys/crypto/fips_enabled".

Definition get_fips_status (e : env) : bool :=
  try_except
    (f <- read_text e fips_file ;;
     Ok (str_eqb (strip f) (lit "1")))
    false.

Definition get_crypto_policy (e : env) : value :=
  let policy := run_command e (lit "update-crypto-policies --show") in
  if truthy policy then policy else VStr (lit "Unknown").

Definition ssg_path : str := lit "/usr/share/xml/scap/ssg/content".

Definition get_stig_info (e : env) : bool := path_exists e ssg_path.

Definition get_bootc_status (e : env) : value :=
  let status := run_command e (lit "bootc status --json 2>/dev/null") in
  if truthy status then status else VNone.

(** [os.cpu_count()] as a Python value. *)
Definition cpu_count_value (e : env) : value :=
  match cpu_count e with
  | Some n => VInt n
  | None => VNone
  end.

(** The entries of the dict display are evaluated in the order written, so
    the uptime command has run when [os.getloadavg()] is called. *)
Definition get_system_info (e : env) : result dict :=
  let hostname := gethostname e in
  let os_ := platform_system e in
  let release := platform_release e in
  let architecture := platform_machine e in
  let python_version := platform_python_version e in
  let uptime := py_or (run_command e (lit "uptime -p")) (VStr (lit "Unknown")) in
  load_average <- getloadavg e ;;
  let cpus := cpu_count_value e in
  Ok [ (lit "hostname", VStr hostname);
       (lit "os", VStr os_);
       (lit "release", VStr release);
       (lit "architecture", VStr architecture);
       (lit "python_version", VStr python_version);
       (lit "uptime", uptime);
       (lit "load_average",
         let '(l1, l5, l15) := load_average in
         VTuple [VFloat l1; VFloat l5; VFloat l15]);
       (lit "cpu_count", cpus) ].

(** ** Timestamps *)

Definition digit (n : N) : codepoint := (48 + n mod 10)%N.

(** [n] in decimal on [width] digits, zero-filled: what the format [%0wd]
    prints for a number below [10 ^ width], as every field of a [datetime]
    is for its width. *)
Fixpoint pad (width : nat) (n : N) : str :=
  match width with
  | O => []
  | S w => pad w (n / 10)%N ++ [digit n]
  end.

Definition chr (a : ascii) : codepoint := N_of_ascii a.

(** [dt.isoformat()] of a naive datetime:
    [YYYY-MM-DDTHH:MM:SS], then [.ffffff] unless the microsecond is 0. *)
Definition isoformat (dt : datetime) : str :=
  pad 4 (year dt) ++ chr "-" ::
  pad 2 (month dt) ++ chr "-" ::
  pad 2 (day dt) ++ chr "T" ::
  pad 2 (hour dt) ++ chr ":" ::
  pad 2 (minute dt) ++ chr ":" ::
  pad 2 (second dt) ++
  (if (microsecond dt =? 0)%N then [] else chr "." :: pad 6 (microsecond dt)).

(** The field ranges of a [datetime] object. *)
Definition valid_datetime (dt : datetime) : bool :=
  ((1 <=? year dt) && (year dt <=? 9999)
   && (1 <=? month dt) && (month dt <=? 12)
   && (1 <=? day dt) && (day dt <=? 31)
   && (hour dt <=? 23) && (minute dt <=? 59) && (second dt <=? 59)
   && (microsecond dt <=? 999999))%N.

(** Chronological order of two naive datetimes (Python's [<] on them). *)
Definition datetime_compare (a b : datetime) : comparison :=
  match (year a ?= year b)%N with
  | Eq =>
    match (month a ?= month b)%N with
    | Eq =>
      match (day a ?= day b)%N with
      | Eq =>
        match (hour a ?= hour b)%N with
        | Eq =>
          match (minute a ?= minute b)%N with
          | Eq =>
            match (second a ?= second b)%N with
            | Eq => (microsecond a ?= microsecond b)%N
            | c => c
            end
          | c => c
          end
        | c => c
        end
      | c => c
      end
    | c => c
    end
  | c => c
  end.

(** ** The HTTP handlers *)

Record response : Type := {
  status_code : N;
  json : value
}.

(** [flask.jsonify(d)]: the dict as a JSON body, with status 200. *)
Definition jsonify (d : dict) : response :=
  {| status_code := 200; json := VDict d |}.

(** The handler of [/api/status]. *)
Definition status (e : env) : result response :=
  system_info <- get_system_info e ;;
  let fips_enabled := get_fips_status e in
  let crypto_policy := get_crypto_policy e in
  let stig_installed := get_stig_info e in
  Ok (jsonify
        [ (lit "timestamp", VStr (isoformat (now e)));
          (lit "system", VDict system_info);
          (lit "security",
            VDict [ (lit "fips_enabled", VBool fips_enabled);
                    (lit "crypto_policy", crypto_policy);
                    (lit "stig_installed", VBool stig_installed) ]);
          (lit "bootc_status", get_bootc_status e) ]).

(** The handler of [/api/health]. *)
Definition health (e : env) : result response :=
  Ok (jsonify
        [ (lit "status", VStr (lit "healthy"));
          (lit "timestamp", VStr (isoformat (now e))) ]).

(** ** Notions the properties are stated with *)

(** A string made of whitespace only (the empty string included). *)
Definition whitespace (s : str) : bool := forallb isspace s.

(** [t] has no whitespace at either end. *)
Definition trimmed (t : str) : Prop :=
  lstrip t = t /\ lstrip (rev t) = rev t.

(** [t] is [s] without its leading and trailing whitespace. *)
Definition trim_of (s t : str) : Prop :=
  exists l r, s = l ++ t ++ r /\ whitespace l = true /\ whitespace r = true
              /\ trimmed t.

(** The ways a probe command fails within [run_command]'s 5 seconds. *)
Inductive probe_fails : proc_behaviour -> Prop :=
| fails_error (x : exn) : probe_fails (Fails x)
| fails_hang : probe_fails Hangs
| fails_timeout (ms : N) (rc : Z) (out : str) :
    (5000 < ms)%N -> probe_fails (Exits ms rc out)
| fails_nonzero (ms : N) (rc : Z) (out : str) :
    rc <> 0%Z -> probe_fails (Exits ms rc out).

(** The command exits in time with code 0 and prints [out]. *)
Definition succeeds_with (b : proc_behaviour) (out : str) : Prop :=
  exists ms, b = Exits ms 0 out /\ (ms <= 5000)%N.

Definition uptime_cmd : str := lit "uptime -p".
Definition crypto_cmd : str := lit "update-crypto-policies --show".
Definition bootc_cmd : str := lit "bootc status --json 2>/dev/null".

Definition Unknown : value := VStr (lit "Unknown").

(** A response with status 200. *)
Definition returns_200 (r : result response) : Prop :=
  exists body, r = Ok {| status_code := 200; json := body |}.

(** The field [k] of a JSON object. *)
Definition field (k : string) (v : value) : option value :=
  match v with
  | VDict d => dict_get (lit k) d
  | _ => None
  end.

(** The field names of a JSON object, [None] for any other value. *)
Definition field_names (v : value) : option (list str) :=
  match v with
  | VDict d => Some (keys d)
  | _ => None
  end.

(** ** Sample environments *)

Definition half : spec_float := S754_finite false 1 (-1).
Definition zero : spec_float := S754_zero false.

(** A host where every probe answers. *)
Definition demo_host : env := {|
  proc := fun cmd =>
    if str_eqb cmd uptime_cmd
    then Exits 12 0 (lit "up 3 hours, 5 minutes" ++ [LF])
    else if str_eqb cmd crypto_cmd
    then Exits 40 0 (lit "FIPS" ++ [LF])
    else if str_eqb cmd bootc_cmd
    then Exits 300 0 (lit "{}" ++ [LF])
    else Exits 3 127 [];
  read_text := fun path =>
    if str_eqb path fips_file then Ok (lit "1" ++ [LF])
    else Raise FileNotFoundError;
  path_exists := fun path => str_eqb path ssg_path;
  gethostname := lit "bootc-demo";
  platform_system := lit "Linux";
  platform_release := lit "5.14.0";
  platform_machine := lit "x86_64";
  platform_python_version := lit "3.9.18";
  getloadavg := Ok (half, half, zero);
  cpu_count := Some 4%Z;
  now := {| year := 2026; month := 11; day := 1; hour := 1; minute := 59;
            second := 59; microsecond := 900000 |}
|}.

Definition with_proc (e : env) (cmd : str) (b : proc_behaviour) : env := {|
  proc := fun c => if str_eqb c cmd then b else proc e c;
  read_text := read_text e;
  path_exists := path_exists e;
  gethostname := gethostname e;
  platform_system := platform_system e;
  platform_release := platform_release e;
  platform_machine := platform_machine e;
  platform_python_version := platform_python_version e;
  getloadavg := getloadavg e;
  cpu_count := cpu_count e;
  now := now e
|}.

Definition with_file (e : env) (path : str) (r : result str) : env := {|
  proc := proc e;
  read_text := fun p => if str_eqb p path then r else read_text e p;
  path_exists := path_exists e;
  gethostname := gethostname e;
  platform_system := platform_system e;
  platform_release := platform_release e;
  platform_machine := platform_machine e;
  platform_python_version := platform_python_version e;
  getloadavg := getloadavg e;
  cpu_count := cpu_count e;
  now := now e
|}.

Definition with_load (e : env)
    (l : result (spec_float * spec_float * spec_float)) (n : option Z)
  : env := {|
  proc := proc e;
  read_text := read_text e;
  path_exists := path_exists e;
  gethostname := gethostname e;
  platform_system := platform_system e;
  platform_release := platform_release e;
  platform_machine := platform_machine e;
  platform_python_version := platform_python_version e;
  getloadavg := l;
  cpu_count := n;
  now := now e
|}.

Definition with_now (e : env) (t : datetime) : env := {|
  proc := proc e;
  read_text := read_text e;
  path_exists := path_exists e;
  gethostname := gethostname e;
  platform_system := platform_system e;
  platform_release := platform_release e;
  platform_machine := platform_machine e;
  platform_python_version := platform_python_version e;
  getloadavg := getloadavg e;
  cpu_count := cpu_count e;
  now := t
|}.

(** A host whose load average is unobtainable. *)
Definition no_loadavg_host : env := with_load demo_host (Raise OSError) (Some 4%Z).

(** A host whose CPU count is undetermined. *)
Definition no_cpu_count_host : env := with_load demo_host (Ok (half, half, zero)) None.


Definition no_policy_tool_host : env :=
  with_proc demo_host crypto_cmd (Exits 3 127 []).

Definition silent_policy_host : env :=
  with_proc demo_host crypto_cmd (Exits 40 0 []).

Definition bootc_timeout_host : env :=
  with_proc demo_host bootc_cmd Hangs.

Definition bootc_timeout_no_loadavg_host : env :=
  with_load bootc_timeout_host (Raise OSError) (Some 4%Z).

Definition blank_probes_host : env :=
  with_proc (with_proc (with_proc demo_host
    uptime_cmd (Exits 12 0 [LF]))
    crypto_cmd (Exits 40 0 [32; LF]%N))
    bootc_cmd (Exits 300 0 []).

(** Two consecutive requests around the end of daylight saving time: the
    second one is served 0.2 s after the first, when the local clock has
    been set back by one hour. *)
Definition before_clock_change : env := demo_host.

Definition after_clock_change : env :=
  with_now demo_host
    {| year := 2026; month := 11; day := 1; hour := 1; minute := 0;
       second := 0; microsecond := 100000 |}.

(** The host has been renamed between two requests. *)
Definition renamed_host : env := {|
  proc := proc demo_host;
  read_text := read_text demo_host;
  path_exists := path_exists demo_host;
  gethostname := lit "bootc-demo-2";
  platform_system := platform_system demo_host;
  platform_release := platform_release demo_host;
  platform_machine := platform_machine demo_host;
  platform_python_version := platform_python_version demo_host;
  getloadavg := getloadavg demo_host;
  cpu_count := cpu_count demo_host;
  now := {| year := 2026; month := 11; day := 1; hour := 2; minute := 0;
            second := 0; microsecond := 0 |}
|}.

(** The field [k2] of the object in field [k1]. *)
Definition field2 (k1 k2 : string) (v : value) : option value :=
  match field k1 v with
  | Some x => field k2 x
  | None => None
  end.

(** ** The kinds of values a report field holds *)

Definition is_str (v : value) : bool :=
  match v with VStr _ => true | _ => false end.

Definition is_nonempty_str (v : value) : bool :=
  match v with VStr (_ :: _) => true | _ => false end.

Definition is_bool (v : value) : bool :=
  match v with VBool _ => true | _ => false end.

Definition is_int_or_none (v : value) : bool :=
  match v with VInt _ | VNone => true | _ => false end.

Definition is_none_or_nonempty_str (v : value) : bool :=
  match v with VNone | VStr (_ :: _) => true | _ => false end.

(** The entry [k] of the dict [d] exists and satisfies [p]. *)
Definition entry_is (p : value -> bool) (k : string) (d : dict) : Prop :=
  exists v, dict_get (lit k) d = Some v /\ p v = true.

(** Two runs of the [/api/status] handler end the same way, and when both
    return a response the two responses agree wherever [same] says. *)
Definition status_agree (same : value -> value -> Prop)
    (a b : result response) : Prop :=
  match a, b with
  | Ok r, Ok r' => status_code r = status_code r' /\ same (json r) (json r')
  | Raise x, Raise x' => x = x'
  | _, _ => False
  end.

(** The entries of two JSON objects are the same but for the key [k]. *)
Definition same_but (k : string) (v v' : value) : Prop :=
  match v, v' with
  | VDict d, VDict d' =>
      keys d = keys d'
      /\ forall k', k' <> lit k -> dict_get k' d = dict_get k' d'
  | _, _ => False
  end.

(** Two JSON objects are the same but for the object under [k1], and these
    two are the same but for the key [k2]. *)
Definition same_but_in (k1 k2 : string) (v v' : value) : Prop :=
  same_but k1 v v'
  /\ exists o o', field k1 v = Some o /\ field k1 v' = Some o'
                  /\ same_but k2 o o'.

Definition with_path (e : env) (path : str) (present : bool) : env := {|
  proc := proc e;
  read_text := read_text e;
  path_exists := fun p => if str_eqb p path then present else path_exists e p;
  gethostname := gethostname e;
  platform_system := platform_system e;
  platform_release := platform_release e;
  platform_machine := platform_machine e;
  platform_python_version := platform_python_version e;
  getloadavg := getloadavg e;
  cpu_count := cpu_count e;
  now := now e
|}.

(** The policy command prints its answer between blank lines. *)
Definition padded_policy_host : env :=
  with_proc demo_host crypto_cmd
    (Exits 55 0 ([LF; 32%N] ++ lit "FIPS" ++ [LF; 32%N; LF])).

(** ** Trimming *)

Lemma lstrip_whitespace_app (l s : str) :
  whitespace l = true -> lstrip (l ++ s) = lstrip s.
Proof.
  induction l as [|c l IH]; simpl; intros H; [reflexivity|].
  apply andb_true_iff in H as [Hc Hl].
  rewrite Hc. now apply IH.
Qed.

Lemma lstrip_whitespace (l : str) :
  whitespace l = true -> lstrip l = [].
Proof.
  intros H. rewrite <- (app_nil_r l).
  now rewrite lstrip_whitespace_app.
Qed.

Lemma lstrip_split (s : str) :
  exists l, s = l ++ lstrip s /\ whitespace l = true.
Proof.
  induction s as [|c s [l [Hs Hl]]]; simpl.
  - now exists [].
  - destruct (isspace c) eqn:Hc.
    + exists (c :: l). simpl. rewrite Hc, Hl. split; [now f_equal | reflexivity].
    + now exists [].
Qed.

Lemma lstrip_idempotent (s : str) : lstrip (lstrip s) = lstrip s.
Proof.
  induction s as [|c s IH]; simpl; [reflexivity|].
  destruct (isspace c) eqn:Hc; [exact IH|].
  simpl. now rewrite Hc.
Qed.

Lemma lstrip_length (s : str) : (List.length (lstrip s) <= List.length s)%nat.
Proof.
  induction s as [|c s IH]; simpl; [lia|].
  destruct (isspace c); simpl; lia.
Qed.

(** A string that [lstrip] leaves alone starts with no whitespace. *)
Lemma lstrip_fixed_head (c : codepoint) (t : str) :
  lstrip (c :: t) = c :: t -> isspace c = false.
Proof.
  simpl. destruct (isspace c); [|reflexivity].
  intros H. pose proof (lstrip_length t) as Hlen.
  rewrite H in Hlen. simpl in Hlen. lia.
Qed.

Lemma lstrip_fixed_app (t r : str) :
  t <> [] -> lstrip t = t -> lstrip (t ++ r) = t ++ r.
Proof.
  destruct t as [|c t]; [congruence|]. intros _ H.
  apply lstrip_fixed_head in H. simpl. now rewrite H.
Qed.

Lemma whitespace_rev (l : str) : whitespace (rev l) = whitespace l.
Proof.
  unfold whitespace. induction l as [|c l IH]; simpl; [reflexivity|].
  rewrite forallb_app, IH. simpl. rewrite andb_true_r. apply andb_comm.
Qed.

Lemma strip_trimmed (s : str) : trimmed (strip s).
Proof.
  unfold trimmed, strip, rstrip. rewrite rev_involutive.
  split; [|apply lstrip_idempotent].
  destruct (lstrip_split (rev (lstrip s))) as [l [Hs Hl]].
  remember (lstrip (rev (lstrip s))) as u eqn:Hu.
  apply (f_equal (@rev _)) in Hs. rewrite rev_involutive, rev_app_distr in Hs.
  destruct (rev u) as [|c u'] eqn:Hru; [reflexivity|].
  assert (Hl' : lstrip (lstrip s) = lstrip s) by apply lstrip_idempotent.
  rewrite Hs in Hl'. simpl app in Hl'.
  apply lstrip_fixed_head in Hl'. simpl. now rewrite Hl'.
Qed.

Lemma strip_split (s : str) : trim_of s (strip s).
Proof.
  destruct (lstrip_split s) as [l [Hs Hl]].
  destruct (lstrip_split (rev (lstrip s))) as [r [Hr Hwr]].
  exists l, (rev r). repeat split.
  - rewrite Hs at 1. f_equal. unfold strip, rstrip.
    rewrite <- rev_app_distr, <- Hr. now rewrite rev_involutive.
  - exact Hl.
  - now rewrite whitespace_rev.
  - apply strip_trimmed.
  - apply strip_trimmed.
Qed.

Lemma strip_sandwich (l t r : str) :
  whitespace l = true -> whitespace r = true -> trimmed t ->
  strip (l ++ t ++ r) = t.
Proof.
  intros Hl Hr [Ht Hrt]. unfold strip, rstrip.
  rewrite lstrip_whitespace_app by exact Hl.
  destruct t as [|c t].
  - simpl. rewrite (lstrip_whitespace r Hr). reflexivity.
  - rewrite lstrip_fixed_app by (congruence || exact Ht).
    rewrite rev_app_distr.
    rewrite lstrip_whitespace_app by now rewrite whitespace_rev.
    rewrite Hrt. apply rev_involutive.
Qed.

(** [strip] computes the trimmed form, and the trimmed form is unique. *)
Lemma strip_spec (s t : str) : strip s = t <-> trim_of s t.
Proof.
  split.
  - intros <-. apply strip_split.
  - intros (l & r & -> & Hl & Hr & Ht). now apply strip_sandwich.
Qed.

Lemma strip_whitespace (s : str) : whitespace s = true -> strip s = [].
Proof.
  intros H. rewrite <- (app_nil_r s).
  apply (@strip_sandwich s [] []); auto. now split.
Qed.

Lemma strip_empty_iff (s : str) : strip s = [] <-> whitespace s = true.
Proof.
  split; [|apply strip_whitespace].
  intros H. destruct (strip_split s) as (l & r & Hs & Hl & Hr & _).
  rewrite H in Hs. simpl in Hs. rewrite Hs.
  unfold whitespace in *. now rewrite forallb_app, Hl, Hr.
Qed.

Lemma str_eqb_eq (a b : str) : str_eqb a b = true <-> a = b.
Proof.
  revert b. induction a as [|x a IH]; intros [|y b]; simpl;
    try (split; congruence).
  rewrite andb_true_iff, N.eqb_eq, IH. split.
  - intros [-> ->]. reflexivity.
  - intros E. injection E as -> ->. now split.
Qed.

(** ** Running a probe command *)

Lemma run_command_fails (e : env) (cmd : str) :
  probe_fails (proc e cmd) -> run_command e cmd = VNone.
Proof.
  unfold run_command, subprocess_run.
  intros H. change (1000 * 5)%N with 5000%N.
  destruct H as [x | | ms rc out Hms | ms rc out Hrc]; try reflexivity.
  - apply N.leb_gt in Hms. now rewrite Hms.
  - destruct (ms <=? 5000)%N; simpl; [|reflexivity].
    apply Z.eqb_neq in Hrc. now rewrite Hrc.
Qed.

Lemma run_command_succeeds (e : env) (cmd out : str) :
  succeeds_with (proc e cmd) out -> run_command e cmd = VStr (strip out).
Proof.
  intros [ms [Hb Hms]]. unfold run_command, subprocess_run. rewrite Hb.
  apply N.leb_le in Hms. change (1000 * 5)%N with 5000%N.
  now rewrite Hms.
Qed.

(** A command either fails or succeeds with some output, never both. *)
Lemma probe_outcome (b : proc_behaviour) :
  probe_fails b \/ exists out, succeeds_with b out.
Proof.
  destruct b as [x | | ms rc out].
  - left. constructor.
  - left. constructor.
  - destruct (N.lt_ge_cases 5000 ms) as [H|H].
    + left. now apply fails_timeout.
    + destruct (Z.eq_dec rc 0) as [->|Hrc].
      * right. exists out, ms. now split.
      * left. now apply fails_nonzero.
Qed.

Lemma probe_fails_not_succeeds (b : proc_behaviour) (out : str) :
  probe_fails b -> ~ succeeds_with b out.
Proof.
  intros H [ms [Hb Hms]]. subst b.
  inversion H; subst; [lia | congruence].
Qed.

(** A probe that prints nothing but whitespace yields the empty string. *)
Lemma run_command_blank (e : env) (cmd out : str) :
  succeeds_with (proc e cmd) out -> whitespace out = true ->
  run_command e cmd = VStr [].
Proof.
  intros Hs Hw. rewrite (run_command_succeeds e cmd out Hs).
  now rewrite strip_whitespace.
Qed.

Lemma get_system_info_eq (e : env) :
  get_system_info e =
  match getloadavg e with
  | Ok (l1, l5, l15) =>
      Ok [ (lit "hostname", VStr (gethostname e));
           (lit "os", VStr (platform_system e));
           (lit "release", VStr (platform_release e));
           (lit "architecture", VStr (platform_machine e));
           (lit "python_version", VStr (platform_python_version e));
           (lit "uptime", py_or (run_command e uptime_cmd) Unknown);
           (lit "load_average", VTuple [VFloat l1; VFloat l5; VFloat l15]);
           (lit "cpu_count", cpu_count_value e) ]
  | Raise x => Raise x
  end.
Proof.
  unfold get_system_info. destruct (getloadavg e) as [[[l1 l5] l15]|x];
    reflexivity.
Qed.

Lemma get_system_info_returns (e : env) la :
  getloadavg e = Ok la -> exists info, get_system_info e = Ok info.
Proof.
  intros H. rewrite get_system_info_eq, H. destruct la as [[l1 l5] l15].
  eexists. reflexivity.
Qed.

Lemma get_system_info_uptime (e : env) (info : dict) :
  get_system_info e = Ok info ->
  dict_get (lit "uptime") info = Some (py_or (run_command e uptime_cmd) Unknown).
Proof.
  rewrite get_system_info_eq.
  destruct (getloadavg e) as [[[l1 l5] l15]|x]; [|discriminate].
  intros H. injection H as <-. reflexivity.
Qed.

Lemma status_eq (e : env) :
  status e =
  match get_system_info e with
  | Ok system_info =>
      Ok {| status_code := 200;
            json := VDict
              [ (lit "timestamp", VStr (isoformat (now e)));
                (lit "system", VDict system_info);
                (lit "security",
                  VDict [ (lit "fips_enabled", VBool (get_fips_status e));
                          (lit "crypto_policy", get_crypto_policy e);
                          (lit "stig_installed", VBool (get_stig_info e)) ]);
                (lit "bootc_status", get_bootc_status e) ] |}
  | Raise x => Raise x
  end.
Proof.
  unfold status. destruct (get_system_info e); reflexivity.
Qed.

(** ** The order of timestamps *)

Lemma str_compare_cons_same (c : codepoint) (a b : str) :
  str_compare (c :: a) (c :: b) = str_compare a b.
Proof. simpl. now rewrite N.compare_refl. Qed.

Lemma str_compare_eq (a b : str) : str_compare a b = Eq <-> a = b.
Proof.
  revert b. induction a as [|x a IH]; intros [|y b]; simpl;
    try (split; congruence).
  destruct (N.compare_spec x y) as [->|H|H].
  - rewrite IH. split; congruence.
  - split; [discriminate|]. intros E. injection E as -> _. lia.
  - split; [discriminate|]. intros E. injection E as -> _. lia.
Qed.

Lemma digit_compare (a b : N) :
  (digit a ?= digit b)%N = (a mod 10 ?= b mod 10)%N.
Proof.
  unfold digit.
  destruct (N.compare_spec (a mod 10) (b mod 10)) as [H|H|H].
  - rewrite H. apply N.compare_refl.
  - apply N.compare_lt_iff. lia.
  - apply N.compare_gt_iff. lia.
Qed.

(** Numbers printed on the same number of digits compare as their texts. *)
Lemma pad_compare (w : nat) : forall (a b : N) (s t : str),
  (a < 10 ^ N.of_nat w)%N -> (b < 10 ^ N.of_nat w)%N ->
  str_compare (pad w a ++ s) (pad w b ++ t) =
  match (a ?= b)%N with
  | Eq => str_compare s t
  | c => c
  end.
Proof.
  induction w as [|w IH]; intros a b s t Ha Hb.
  - simpl in Ha, Hb. assert (a = 0%N) as -> by lia.
    assert (b = 0%N) as -> by lia. reflexivity.
  - rewrite Nat2N.inj_succ, N.pow_succ_r' in Ha, Hb.
    pose proof (N.div_mod' a 10) as Ea.
    pose proof (N.div_mod' b 10) as Eb.
    assert (Ra : (a mod 10 < 10)%N) by (apply N.mod_lt; lia).
    assert (Rb : (b mod 10 < 10)%N) by (apply N.mod_lt; lia).
    simpl pad. rewrite <- !app_assoc. simpl app.
    rewrite IH by (apply N.Div0.div_lt_upper_bound; assumption).
    simpl str_compare. rewrite digit_compare.
    clear IH Ha Hb.
    generalize dependent (a / 10)%N. generalize dependent (a mod 10)%N.
    generalize dependent (b / 10)%N. generalize dependent (b mod 10)%N.
    intros rb Rb qb Eb ra Ra qa Ea.
    destruct (N.compare_spec qa qb) as [Hq|Hq|Hq];
      destruct (N.compare_spec ra rb) as [Hr|Hr|Hr];
      destruct (N.compare_spec a b) as [Hab|Hab|Hab];
      try reflexivity; exfalso; lia.
Qed.

Lemma fraction_compare (a b : N) :
  (a < 10 ^ 6)%N -> (b < 10 ^ 6)%N ->
  str_compare
    (if (a =? 0)%N then [] else chr "." :: pad 6 a)
    (if (b =? 0)%N then [] else chr "." :: pad 6 b) =
  (a ?= b)%N.
Proof.
  intros Ha Hb.
  destruct (N.eqb_spec a 0) as [->|Na]; destruct (N.eqb_spec b 0) as [->|Nb].
  - reflexivity.
  - destruct b; [congruence | reflexivity].
  - destruct a; [congruence | reflexivity].
  - rewrite str_compare_cons_same.
    rewrite <- (app_nil_r (pad 6 a)), <- (app_nil_r (pad 6 b)).
    rewrite pad_compare by assumption.
    destruct (a ?= b)%N; reflexivity.
Qed.

Lemma valid_datetime_bounds (d : datetime) :
  valid_datetime d = true ->
  (year d < 10 ^ N.of_nat 4 /\ month d < 10 ^ N.of_nat 2
   /\ day d < 10 ^ N.of_nat 2 /\ hour d < 10 ^ N.of_nat 2
   /\ minute d < 10 ^ N.of_nat 2 /\ second d < 10 ^ N.of_nat 2
   /\ microsecond d < 10 ^ 6)%N.
Proof.
  unfold valid_datetime. rewrite !andb_true_iff, !N.leb_le.
  change (10 ^ N.of_nat 4)%N with 10000%N.
  change (10 ^ N.of_nat 2)%N with 100%N.
  change (10 ^ 6)%N with 1000000%N. lia.
Qed.

(** ISO-8601 texts of valid datetimes are ordered as the datetimes are. *)
Lemma isoformat_compare (a b : datetime) :
  valid_datetime a = true -> valid_datetime b = true ->
  str_compare (isoformat a) (isoformat b) = datetime_compare a b.
Proof.
  intros Va Vb.
  destruct (valid_datetime_bounds a Va) as (Ya & Ma & Da & Ha & Mia & Sa & Ua).
  destruct (valid_datetime_bounds b Vb) as (Yb & Mb & Db & Hb & Mib & Sb & Ub).
  unfold isoformat, datetime_compare.
  rewrite pad_compare, str_compare_cons_same by assumption.
  rewrite pad_compare, str_compare_cons_same by assumption.
  rewrite pad_compare, str_compare_cons_same by assumption.
  rewrite pad_compare, str_compare_cons_same by assumption.
  rewrite pad_compare, str_compare_cons_same by assumption.
  rewrite pad_compare by assumption.
  rewrite fraction_compare by assumption.
  reflexivity.
Qed.

Lemma datetime_compare_eq (a b : datetime) :
  datetime_compare a b = Eq <-> a = b.
Proof.
  split.
  - destruct a, b. unfold datetime_compare. simpl.
    repeat match goal with
    | |- context [(?x ?= ?y)%N] =>
        destruct (N.compare_spec x y); try discriminate; subst
    end.
    reflexivity.
  - intros ->. unfold datetime_compare. now rewrite !N.compare_refl.
Qed.

(** ** The FIPS flag *)

Lemma trimmed_one : trimmed (lit "1").
Proof. split; reflexivity. Qed.

(** C1: [get_fips_status] returns true if and only if the kernel status
    file can be read and its content, with the whitespace at both ends
    removed, is exactly "1"; on every read error it returns false. *)
Theorem get_fips_status_true_iff (e : env) :
  (get_fips_status e = true <->
   exists content,
     read_text e fips_file = Ok content /\ trim_of content (lit "1"))
  /\ (forall x, read_text e fips_file = Raise x -> get_fips_status e = false).
Proof.
  unfold get_fips_status. split.
  - destruct (read_text e fips_file) as [content|x]; simpl.
    + rewrite str_eqb_eq, strip_spec. split.
      * intros H. now exists content.
      * intros [c [Hc H]]. now injection Hc as ->.
    + split; [discriminate|]. intros [c [Hc _]]. discriminate.
  - intros x ->. reflexivity.
Qed.

Example fips_flag_set :
  get_fips_status (with_file demo_host fips_file (Ok (lit "1" ++ [LF]))) = true.
Proof. reflexivity. Qed.

Example fips_flag_clear :
  get_fips_status (with_file demo_host fips_file (Ok (lit "0" ++ [LF]))) = false.
Proof. reflexivity. Qed.

Example fips_file_empty :
  get_fips_status (with_file demo_host fips_file (Ok [])) = false.
Proof. reflexivity. Qed.

Example fips_file_two_lines :
  get_fips_status
    (with_file demo_host fips_file (Ok (lit "1" ++ [LF] ++ lit "0" ++ [LF])))
  = false.
Proof. reflexivity. Qed.

Example fips_file_missing :
  get_fips_status (with_file demo_host fips_file (Raise FileNotFoundError))
  = false.
Proof. reflexivity. Qed.

Example fips_file_unreadable :
  get_fips_status (with_file demo_host fips_file (Raise PermissionError))
  = false.
Proof. reflexivity. Qed.

(** ** The status report *)

(** C2, as the code has it: the handler of [/api/status] returns a 200
    response exactly when the load-average query succeeds, whatever the
    outcome of the commands, of the kernel file, of the path test and of the
    CPU count; when the query raises, the handler raises the same
    exception. *)
Theorem status_returns_200_iff_loadavg (e : env) :
  (returns_200 (status e) <-> exists la, getloadavg e = Ok la)
  /\ (forall x, getloadavg e = Raise x -> status e = Raise x).
Proof.
  rewrite status_eq, get_system_info_eq. unfold returns_200.
  destruct (getloadavg e) as [[[l1 l5] l15]|x]; split.
  - split; intros _; eexists; reflexivity.
  - discriminate.
  - split; intros [? H]; discriminate.
  - intros y H. injection H as ->. reflexivity.
Qed.

(** C2, counterexample: on a host whose load average is unobtainable the
    handler raises [OSError] and returns no response. *)
Lemma status_raises_without_loadavg :
  getloadavg no_loadavg_host = Raise OSError
  /\ status no_loadavg_host = Raise OSError
  /\ ~ returns_200 (status no_loadavg_host).
Proof.
  repeat split. intros [body H]. discriminate.
Qed.

(** C3, as the code has it: an undetermined CPU count is reported as the
    placeholder [None] and does not make [get_system_info] fail; an
    unobtainable load average has no fallback value, the exception of the
    query leaves [get_system_info]. *)
Theorem get_system_info_cpu_count_placeholder (e : env) :
  (forall la, getloadavg e = Ok la -> cpu_count e = None ->
     exists info, get_system_info e = Ok info
                  /\ dict_get (lit "cpu_count") info = Some VNone)
  /\ (forall x, getloadavg e = Raise x -> get_system_info e = Raise x).
Proof.
  rewrite get_system_info_eq. split.
  - intros [[l1 l5] l15] -> Hc. eexists. split; [reflexivity|].
    unfold cpu_count_value. rewrite Hc. reflexivity.
  - intros x ->. reflexivity.
Qed.

(** C3, counterexample: without load averages [get_system_info] fails
    instead of reporting a zero or placeholder value. *)
Lemma get_system_info_raises_without_loadavg :
  getloadavg no_loadavg_host = Raise OSError
  /\ get_system_info no_loadavg_host = Raise OSError.
Proof. split; reflexivity. Qed.

Example cpu_count_undetermined :
  exists info, get_system_info no_cpu_count_host = Ok info
               /\ dict_get (lit "cpu_count") info = Some VNone.
Proof. eexists. split; reflexivity. Qed.



Example uptime_reported :
  exists info, get_system_info demo_host = Ok info
               /\ dict_get (lit "uptime") info
                  = Some (VStr (lit "up 3 hours, 5 minutes")).
Proof. eexists. split; reflexivity. Qed.

(** ** The crypto policy and the boot status *)

(** C5, as the code has it: [get_crypto_policy] returns "Unknown" for every
    failure of the policy command (it cannot be run, it times out after 5
    seconds, it exits with a non-zero code); when the command succeeds it
    returns the captured output with the whitespace at both ends removed,
    and "Unknown" again when nothing is left of it. *)
Theorem get_crypto_policy_result (e : env) :
  (probe_fails (proc e crypto_cmd) -> get_crypto_policy e = Unknown)
  /\ (forall out t,
        succeeds_with (proc e crypto_cmd) out -> trim_of out t ->
        get_crypto_policy e = match t with
                              | [] => Unknown
                              | _ :: _ => VStr t
                              end).
Proof.
  unfold get_crypto_policy. fold crypto_cmd. split.
  - intros Hf. now rewrite (run_command_fails e crypto_cmd Hf).
  - intros out t Hs Ht. rewrite (run_command_succeeds e crypto_cmd out Hs).
    apply strip_spec in Ht. rewrite Ht. destruct t; reflexivity.
Qed.

(** C5, counterexample: a policy command that succeeds does not have its
    captured output returned as it is.  Output "FIPS" followed by a newline
    comes back as "FIPS", and empty output comes back as "Unknown". *)
Lemma get_crypto_policy_not_captured_output :
  (succeeds_with (proc demo_host crypto_cmd) (lit "FIPS" ++ [LF])
   /\ get_crypto_policy demo_host = VStr (lit "FIPS")
   /\ get_crypto_policy demo_host <> VStr (lit "FIPS" ++ [LF]))
  /\ (succeeds_with (proc silent_policy_host crypto_cmd) []
      /\ get_crypto_policy silent_policy_host = Unknown
      /\ get_crypto_policy silent_policy_host <> VStr []).
Proof.
  split; (split; [eexists; split; [reflexivity | vm_compute; discriminate]|]);
    (split; [reflexivity | vm_compute; discriminate]).
Qed.

Example policy_tool_missing : get_crypto_policy no_policy_tool_host = Unknown.
Proof. reflexivity. Qed.

Lemma get_bootc_status_fails (e : env) :
  probe_fails (proc e bootc_cmd) -> get_bootc_status e = VNone.
Proof.
  intros Hf. unfold get_bootc_status. fold bootc_cmd.
  now rewrite (run_command_fails e bootc_cmd Hf).
Qed.

(** C6, as the code has it: [get_bootc_status] returns [None], and raises
    nothing, whenever the boot-management command cannot be run, times out
    after 5 seconds or exits with a non-zero code; in that case, provided
    the load-average query of the system information succeeds, the handler
    of [/api/status] returns 200 with a null [bootc_status]. *)
Theorem bootc_status_absent_on_failure (e : env) :
  probe_fails (proc e bootc_cmd) ->
  get_bootc_status e = VNone
  /\ (forall la, getloadavg e = Ok la ->
        exists r, status e = Ok r /\ status_code r = 200%N
                  /\ field "bootc_status" (json r) = Some VNone).
Proof.
  intros Hf. pose proof (get_bootc_status_fails e Hf) as Hb.
  split; [exact Hb|].
  intros la Hla. rewrite status_eq.
  destruct (get_system_info_returns e la Hla) as [info ->].
  eexists. split; [reflexivity|]. split; [reflexivity|].
  simpl. exact (f_equal Some Hb).
Qed.

Lemma bootc_status_absent_on_failure_witness :
  get_bootc_status bootc_timeout_host = VNone
  /\ (forall la, getloadavg bootc_timeout_host = Ok la ->
        exists r, status bootc_timeout_host = Ok r /\ status_code r = 200%N
                  /\ field "bootc_status" (json r) = Some VNone).
Proof.
  apply (bootc_status_absent_on_failure bootc_timeout_host).
  apply fails_hang.
Defined.

(** C6, counterexample: the boot-management command times out on a host
    whose load average is unobtainable; [get_bootc_status] is [None], and
    the handler of [/api/status] raises instead of returning 200. *)
Lemma status_raises_despite_bootc_default :
  probe_fails (proc bootc_timeout_no_loadavg_host bootc_cmd)
  /\ get_bootc_status bootc_timeout_no_loadavg_host = VNone
  /\ status bootc_timeout_no_loadavg_host = Raise OSError.
Proof.
  split; [apply fails_hang | split; reflexivity].
Qed.

(** ** The health probe *)

(** C7: in every environment, whatever the probes would answer, the handler
    of [/api/health] returns a 200 response whose payload has the two fields
    [status], equal to "healthy", and [timestamp], the current time. *)
Theorem health_always_healthy (e : env) :
  exists r, health e = Ok r
    /\ status_code r = 200%N
    /\ field_names (json r) = Some [lit "status"; lit "timestamp"]
    /\ field "status" (json r) = Some (VStr (lit "healthy"))
    /\ field "timestamp" (json r) = Some (VStr (isoformat (now e))).
Proof.
  eexists. split; [reflexivity|]. repeat split.
Qed.

Example health_without_loadavg :
  exists r, health no_loadavg_host = Ok r
    /\ field "status" (json r) = Some (VStr (lit "healthy"))
    /\ field "timestamp" (json r)
       = Some (VStr (lit "2026-11-01T01:59:59.900000")).
Proof. eexists. repeat split. Qed.

(** ** The shape of the status report *)

(** C8: every response of the handler of [/api/status] is a JSON object
    with exactly the fields [timestamp], [system], [security] and
    [bootc_status]; [system] is an object with exactly the 8 fields
    hostname, os, release, architecture, python_version, uptime,
    load_average and cpu_count, and [security] an object with exactly the 3
    fields fips_enabled, crypto_policy and stig_installed. *)
Theorem status_response_fields (e : env) (r : response) :
  status e = Ok r ->
  field_names (json r)
  = Some [lit "timestamp"; lit "system"; lit "security"; lit "bootc_status"]
  /\ (exists sys, field "system" (json r) = Some sys
        /\ field_names sys
           = Some [lit "hostname"; lit "os"; lit "release";
                   lit "architecture"; lit "python_version"; lit "uptime";
                   lit "load_average"; lit "cpu_count"])
  /\ (exists sec, field "security" (json r) = Some sec
        /\ field_names sec
           = Some [lit "fips_enabled"; lit "crypto_policy";
                   lit "stig_installed"]).
Proof.
  rewrite status_eq, get_system_info_eq.
  destruct (getloadavg e) as [[[l1 l5] l15]|x]; [|discriminate].
  intros H. injection H as <-. split; [reflexivity|].
  split; eexists; split; reflexivity.
Qed.

Lemma status_response_fields_witness :
  exists r, status demo_host = Ok r
  /\ field_names (json r)
     = Some [lit "timestamp"; lit "system"; lit "security"; lit "bootc_status"]
  /\ (exists sys, field "system" (json r) = Some sys
        /\ field_names sys
           = Some [lit "hostname"; lit "os"; lit "release";
                   lit "architecture"; lit "python_version"; lit "uptime";
                   lit "load_average"; lit "cpu_count"])
  /\ (exists sec, field "security" (json r) = Some sec
        /\ field_names sec
           = Some [lit "fips_enabled"; lit "crypto_policy";
                   lit "stig_installed"]).
Proof.
  eexists. split; [reflexivity|].
  apply (status_response_fields demo_host). reflexivity.
Defined.

(** The field names of the report are pairwise distinct. *)
Lemma status_field_names_distinct :
  NoDup [lit "timestamp"; lit "system"; lit "security"; lit "bootc_status"]
  /\ NoDup [lit "hostname"; lit "os"; lit "release"; lit "architecture";
            lit "python_version"; lit "uptime"; lit "load_average";
            lit "cpu_count"]
  /\ NoDup [lit "fips_enabled"; lit "crypto_policy"; lit "stig_installed"].
Proof.
  repeat split;
    repeat (constructor; [simpl; intuition discriminate|]); constructor.
Qed.

(** ** Two consecutive status requests *)

Lemma status_timestamp (e : env) (r : response) :
  status e = Ok r ->
  field "timestamp" (json r) = Some (VStr (isoformat (now e)))
  /\ field2 "system" "hostname" (json r) = Some (VStr (gethostname e)).
Proof.
  rewrite status_eq, get_system_info_eq.
  destruct (getloadavg e) as [[[l1 l5] l15]|x]; [|discriminate].
  intros H. injection H as <-. split; reflexivity.
Qed.

(** C9, as the code has it: each response of [/api/status] carries the
    ISO-8601 text of the local clock reading and the host name of its own
    request.  For two requests that are both answered, the timestamps are
    ordered as the two clock readings are: they differ exactly when the
    readings differ, and they do not decrease exactly when the clock has not
    gone back; the hostname fields are the host names at the two requests,
    identical when the host has not been renamed in between. *)
Theorem consecutive_status_responses (e1 e2 : env) (r1 r2 : response) :
  valid_datetime (now e1) = true -> valid_datetime (now e2) = true ->
  status e1 = Ok r1 -> status e2 = Ok r2 ->
  exists t1 t2 h1 h2,
    field "timestamp" (json r1) = Some (VStr t1)
    /\ field "timestamp" (json r2) = Some (VStr t2)
    /\ field2 "system" "hostname" (json r1) = Some (VStr h1)
    /\ field2 "system" "hostname" (json r2) = Some (VStr h2)
    /\ str_compare t1 t2 = datetime_compare (now e1) (now e2)
    /\ (t1 <> t2 <-> now e1 <> now e2)
    /\ (str_compare t1 t2 <> Gt <-> datetime_compare (now e1) (now e2) <> Gt)
    /\ (gethostname e1 = gethostname e2 -> h1 = h2)
    /\ h1 = gethostname e1 /\ h2 = gethostname e2.
Proof.
  intros V1 V2 H1 H2.
  destruct (status_timestamp e1 r1 H1) as [T1 N1].
  destruct (status_timestamp e2 r2 H2) as [T2 N2].
  exists (isoformat (now e1)), (isoformat (now e2)),
         (gethostname e1), (gethostname e2).
  pose proof (isoformat_compare (now e1) (now e2) V1 V2) as Hc.
  assert (He : isoformat (now e1) = isoformat (now e2) <-> now e1 = now e2).
  { rewrite <- str_compare_eq, Hc. apply datetime_compare_eq. }
  split; [exact T1|]. split; [exact T2|].
  split; [exact N1|]. split; [exact N2|].
  split; [exact Hc|].
  split; [now rewrite He|].
  split; [now rewrite Hc|].
  split; [intros ->; reflexivity|].
  split; reflexivity.
Qed.

Lemma consecutive_status_responses_witness :
  exists r1 r2 t1 t2 h1 h2,
    status after_clock_change = Ok r1 /\ status renamed_host = Ok r2
    /\ field "timestamp" (json r1) = Some (VStr t1)
    /\ field "timestamp" (json r2) = Some (VStr t2)
    /\ field2 "system" "hostname" (json r1) = Some (VStr h1)
    /\ field2 "system" "hostname" (json r2) = Some (VStr h2)
    /\ str_compare t1 t2
       = datetime_compare (now after_clock_change) (now renamed_host)
    /\ (t1 <> t2 <-> now after_clock_change <> now renamed_host)
    /\ (str_compare t1 t2 <> Gt
        <-> datetime_compare (now after_clock_change) (now renamed_host) <> Gt)
    /\ (gethostname after_clock_change = gethostname renamed_host -> h1 = h2)
    /\ h1 = gethostname after_clock_change /\ h2 = gethostname renamed_host.
Proof.
  destruct (consecutive_status_responses after_clock_change renamed_host
              _ _ eq_refl eq_refl eq_refl eq_refl)
    as (t1 & t2 & h1 & h2 & H).
  eexists. eexists. exists t1, t2, h1, h2.
  split; [reflexivity|]. split; [reflexivity|]. exact H.
Defined.

(** C9, counterexample: the second of two consecutive requests is served
    after the local clock has been set back, and its timestamp is smaller
    than the first one's; and when the host is renamed between two requests
    the hostname fields differ. *)
Lemma consecutive_status_timestamps_decrease :
  (exists r1 r2 t1 t2,
     status before_clock_change = Ok r1 /\ status after_clock_change = Ok r2
     /\ field "timestamp" (json r1) = Some (VStr t1)
     /\ field "timestamp" (json r2) = Some (VStr t2)
     /\ t1 = lit "2026-11-01T01:59:59.900000"
     /\ t2 = lit "2026-11-01T01:00:00.100000"
     /\ str_compare t1 t2 = Gt)
  /\ (exists r1 r2,
        status demo_host = Ok r1 /\ status renamed_host = Ok r2
        /\ field2 "system" "hostname" (json r1) = Some (VStr (lit "bootc-demo"))
        /\ field2 "system" "hostname" (json r2)
           = Some (VStr (lit "bootc-demo-2"))).
Proof.
  split.
  - do 4 eexists. repeat split; reflexivity.
  - do 2 eexists. repeat split; reflexivity.
Qed.

(** ** Probes that print nothing *)


Example blank_probes :
  get_crypto_policy blank_probes_host = Unknown
  /\ get_bootc_status blank_probes_host = VNone
  /\ exists info, get_system_info blank_probes_host = Ok info
                  /\ dict_get (lit "uptime") info = Some Unknown.
Proof. repeat split. eexists. split; reflexivity. Qed.

(** ** What [run_command] returns *)

Lemma succeeds_with_unique (b : proc_behaviour) (out out' : str) :
  succeeds_with b out -> succeeds_with b out' -> out = out'.
Proof.
  intros [ms [H _]] [ms' [H' _]]. congruence.
Qed.

(** X1: [run_command] returns [None] exactly when the call of
    [subprocess.run] raises or reports a non-zero return code, and it
    returns the empty string exactly when the call reports return code 0
    with an output of whitespace only: at this level a silent success is
    still told apart from a failure. *)
Theorem run_command_none_iff_call_fails (e : env) (cmd : str) :
  (run_command e cmd = VNone <->
     (exists x, subprocess_run e cmd 5 = Raise x)
     \/ (exists cp, subprocess_run e cmd 5 = Ok cp /\ returncode cp <> 0%Z))
  /\ (run_command e cmd = VStr [] <->
        exists cp, subprocess_run e cmd 5 = Ok cp /\ returncode cp = 0%Z
                   /\ whitespace (stdout cp) = true).
Proof.
  unfold run_command.
  destruct (subprocess_run e cmd 5) as [cp|x]; simpl.
  - destruct (Z.eqb_spec (returncode cp) 0) as [Hz|Hnz]; split; split.
    + discriminate.
    + intros [[x Hx]|[cp' [Hc Hr]]]; [discriminate|].
      injection Hc as <-. contradiction.
    + intros H. exists cp. split; [reflexivity|]. split; [exact Hz|].
      apply strip_empty_iff. now injection H.
    + intros [cp' [Hc [_ Hw]]]. injection Hc as <-.
      apply strip_empty_iff in Hw. now rewrite Hw.
    + intros _. right. exists cp. now split.
    + reflexivity.
    + discriminate.
    + intros [cp' [Hc [Hr _]]]. injection Hc as <-. contradiction.
  - split; split.
    + intros _. left. now exists x.
    + reflexivity.
    + discriminate.
    + intros [cp [Hc _]]. discriminate.
Qed.

(** X2: Whatever [run_command] returns besides [None] is the output of a
    command that exited with code 0 in time, without the whitespace at its
    two ends: the result never starts or ends with whitespace. *)
Theorem run_command_returns_trimmed_output (e : env) (cmd : str) :
  run_command e cmd = VNone
  \/ exists out s,
       succeeds_with (proc e cmd) out
       /\ run_command e cmd = VStr s
       /\ trim_of out s
       /\ (forall c rest, s = c :: rest -> isspace c = false)
       /\ (forall c rest, s = rest ++ [c] -> isspace c = false).
Proof.
  destruct (probe_outcome (proc e cmd)) as [Hf|[out Hs]].
  - left. now apply run_command_fails.
  - right. exists out, (strip out).
    split; [exact Hs|]. split; [now apply run_command_succeeds|].
    split; [apply strip_split|].
    destruct (strip_trimmed out) as [Hl Hr]. split.
    + intros c rest E. rewrite E in Hl. now apply lstrip_fixed_head in Hl.
    + intros c rest E. rewrite E, rev_app_distr in Hr. simpl in Hr.
      now apply lstrip_fixed_head in Hr.
Qed.

Lemma strip_padding (l s r : str) :
  whitespace l = true -> whitespace r = true ->
  strip (l ++ s ++ r) = strip s.
Proof.
  intros Hl Hr.
  destruct (strip_split s) as (l' & r' & Hs & Hl' & Hr' & Ht).
  rewrite Hs at 1.
  replace (l ++ (l' ++ strip s ++ r') ++ r)
    with ((l ++ l') ++ strip s ++ (r' ++ r))
    by (rewrite <- !app_assoc; reflexivity).
  apply strip_sandwich; [| |exact Ht].
  - unfold whitespace in *. rewrite forallb_app, Hl, Hl'. reflexivity.
  - unfold whitespace in *. rewrite forallb_app, Hr, Hr'. reflexivity.
Qed.

(** X3: Whitespace printed before or after the output of a command does not
    change what [run_command] returns. *)
Theorem run_command_ignores_padding (e e' : env) (cmd out l r : str) :
  succeeds_with (proc e cmd) out ->
  succeeds_with (proc e' cmd) (l ++ out ++ r) ->
  whitespace l = true -> whitespace r = true ->
  run_command e' cmd = run_command e cmd.
Proof.
  intros Hs Hs' Hl Hr.
  rewrite (run_command_succeeds e cmd out Hs).
  rewrite (run_command_succeeds e' cmd _ Hs').
  now rewrite strip_padding.
Qed.

Lemma run_command_ignores_padding_witness :
  run_command padded_policy_host crypto_cmd = run_command demo_host crypto_cmd.
Proof.
  apply (run_command_ignores_padding demo_host padded_policy_host crypto_cmd
           (lit "FIPS" ++ [LF]) [LF; 32%N] [32%N; LF]).
  - exists 40%N. split; [reflexivity | vm_compute; discriminate].
  - exists 55%N. split; [vm_compute; reflexivity | vm_compute; discriminate].
  - reflexivity.
  - reflexivity.
Defined.

(** X4: The file of the FIPS flag is read the same way with whitespace around
    its content: blank lines before or after the flag do not change the
    answer of [get_fips_status]. *)
Theorem get_fips_status_ignores_padding (e e' : env) (content l r : str) :
  read_text e fips_file = Ok content ->
  read_text e' fips_file = Ok (l ++ content ++ r) ->
  whitespace l = true -> whitespace r = true ->
  get_fips_status e' = get_fips_status e.
Proof.
  intros H H' Hl Hr. unfold get_fips_status. rewrite H, H'. simpl.
  now rewrite strip_padding.
Qed.

Lemma get_fips_status_ignores_padding_witness :
  get_fips_status
    (with_file demo_host fips_file (Ok ([LF] ++ lit "1" ++ [32%N; LF])))
  = get_fips_status (with_file demo_host fips_file (Ok (lit "1"))).
Proof.
  apply (get_fips_status_ignores_padding
           (with_file demo_host fips_file (Ok (lit "1")))
           (with_file demo_host fips_file (Ok ([LF] ++ lit "1" ++ [32%N; LF])))
           (lit "1") [LF] [32%N; LF]); reflexivity.
Defined.

(** ** The values of the probed fields *)

Lemma trimmed_Unknown : trimmed (lit "Unknown").
Proof. split; reflexivity. Qed.

Lemma run_command_shape (e : env) (cmd : str) :
  run_command e cmd = VNone
  \/ exists out, succeeds_with (proc e cmd) out
                 /\ run_command e cmd = VStr (strip out).
Proof.
  destruct (probe_outcome (proc e cmd)) as [Hf|[out Hs]].
  - left. now apply run_command_fails.
  - right. exists out. split; [exact Hs|now apply run_command_succeeds].
Qed.

(** A probe result with the default "Unknown" is a non-empty string. *)
Lemma py_or_Unknown_nonempty (e : env) (cmd : str) :
  exists s, py_or (run_command e cmd) Unknown = VStr s
            /\ s <> [] /\ trimmed s.
Proof.
  destruct (run_command_shape e cmd) as [H|[out [_ H]]]; rewrite H.
  - exists (lit "Unknown"). split; [reflexivity|].
    split; [discriminate | apply trimmed_Unknown].
  - destruct (strip out) as [|c t] eqn:E.
    + exists (lit "Unknown"). split; [reflexivity|].
      split; [discriminate | apply trimmed_Unknown].
    + exists (c :: t). split; [reflexivity|]. split; [discriminate|].
      rewrite <- E. apply strip_trimmed.
Qed.

(** X5: [get_crypto_policy] always returns a string, never [None]; the string
    is never empty and has no whitespace at either end. *)
Theorem get_crypto_policy_nonempty_string (e : env) :
  exists s, get_crypto_policy e = VStr s /\ s <> [] /\ trimmed s.
Proof.
  exact (py_or_Unknown_nonempty e crypto_cmd).
Qed.

(** X6: [get_bootc_status] is [None] exactly when the boot-management command
    fails or when it succeeds and prints nothing but whitespace: an empty
    answer and no answer are not told apart. *)
Theorem get_bootc_status_none_iff (e : env) :
  get_bootc_status e = VNone
  <-> probe_fails (proc e bootc_cmd)
      \/ exists out, succeeds_with (proc e bootc_cmd) out
                     /\ whitespace out = true.
Proof.
  unfold get_bootc_status. fold bootc_cmd. split.
  - intros H. destruct (probe_outcome (proc e bootc_cmd)) as [Hf|[out Hs]].
    + now left.
    + right. exists out. split; [exact Hs|]. apply strip_empty_iff.
      rewrite (run_command_succeeds e bootc_cmd out Hs) in H.
      destruct (strip out); [reflexivity|discriminate].
  - intros [Hf|[out [Hs Hw]]].
    + now rewrite (run_command_fails e bootc_cmd Hf).
    + now rewrite (run_command_blank e bootc_cmd out Hs Hw).
Qed.

(** X7: When the boot-management command succeeds and prints something,
    [get_bootc_status] returns that output as a string, without the
    whitespace around it and otherwise unchanged (it is not parsed). *)
Theorem get_bootc_status_returns_output (e : env) (out t : str) :
  succeeds_with (proc e bootc_cmd) out -> trim_of out t -> t <> [] ->
  get_bootc_status e = VStr t.
Proof.
  intros Hs Ht Hne. unfold get_bootc_status. fold bootc_cmd.
  rewrite (run_command_succeeds e bootc_cmd out Hs).
  apply strip_spec in Ht. rewrite Ht. destruct t; [congruence|reflexivity].
Qed.

Lemma get_bootc_status_returns_output_witness :
  get_bootc_status demo_host = VStr (lit "{}").
Proof.
  apply (get_bootc_status_returns_output demo_host (lit "{}" ++ [LF])).
  - exists 300%N. split; [reflexivity | vm_compute; discriminate].
  - exists [], [LF]. repeat split.
  - discriminate.
Defined.

(** X8: When the uptime command succeeds and prints something, the uptime field
    of the system information is that output without the whitespace around
    it. *)
Theorem uptime_field_on_success (e : env) (info : dict) (out t : str) :
  get_system_info e = Ok info ->
  succeeds_with (proc e uptime_cmd) out -> trim_of out t -> t <> [] ->
  dict_get (lit "uptime") info = Some (VStr t).
Proof.
  intros Hi Hs Ht Hne. rewrite (get_system_info_uptime e info Hi).
  rewrite (run_command_succeeds e uptime_cmd out Hs).
  apply strip_spec in Ht. rewrite Ht. destruct t; [congruence|reflexivity].
Qed.

Lemma uptime_field_on_success_witness :
  exists info, get_system_info demo_host = Ok info
    /\ dict_get (lit "uptime") info = Some (VStr (lit "up 3 hours, 5 minutes")).
Proof.
  eexists. split; [reflexivity|].
  apply (uptime_field_on_success demo_host _
           (lit "up 3 hours, 5 minutes" ++ [LF])).
  - reflexivity.
  - exists 12%N. split; [reflexivity | vm_compute; discriminate].
  - exists [], [LF]. repeat split.
  - discriminate.
Defined.

(** ** The kinds of the report's fields *)

(** X9: In every response of [/api/status] the system object holds strings for
    hostname, os, release, architecture and python_version, a non-empty
    string for uptime, the three floats of the load-average query in their
    order for load_average, and an integer or null for cpu_count. *)
Theorem status_system_field_kinds (e : env) (r : response) :
  status e = Ok r ->
  exists sys l1 l5 l15,
    field "system" (json r) = Some (VDict sys)
    /\ getloadavg e = Ok (l1, l5, l15)
    /\ entry_is is_str "hostname" sys
    /\ entry_is is_str "os" sys
    /\ entry_is is_str "release" sys
    /\ entry_is is_str "architecture" sys
    /\ entry_is is_str "python_version" sys
    /\ entry_is is_nonempty_str "uptime" sys
    /\ dict_get (lit "load_average") sys
       = Some (VTuple [VFloat l1; VFloat l5; VFloat l15])
    /\ entry_is is_int_or_none "cpu_count" sys.
Proof.
  rewrite status_eq, get_system_info_eq.
  destruct (getloadavg e) as [[[l1 l5] l15]|x]; [|discriminate].
  intros H. injection H as <-.
  eexists. exists l1, l5, l15. split; [reflexivity|]. split; [reflexivity|].
  repeat (split; [eexists; split; reflexivity|]).
  split.
  - destruct (py_or_Unknown_nonempty e uptime_cmd) as (s & Hs & Hne & _).
    eexists. split; [reflexivity|]. rewrite Hs.
    destruct s; [congruence|reflexivity].
  - split; [reflexivity|]. eexists. split; [reflexivity|].
    unfold cpu_count_value. destruct (cpu_count e); reflexivity.
Qed.

Lemma status_system_field_kinds_witness :
  exists r sys l1 l5 l15,
    status no_cpu_count_host = Ok r
    /\ field "system" (json r) = Some (VDict sys)
    /\ getloadavg no_cpu_count_host = Ok (l1, l5, l15)
    /\ entry_is is_str "hostname" sys
    /\ entry_is is_str "os" sys
    /\ entry_is is_str "release" sys
    /\ entry_is is_str "architecture" sys
    /\ entry_is is_str "python_version" sys
    /\ entry_is is_nonempty_str "uptime" sys
    /\ dict_get (lit "load_average") sys
       = Some (VTuple [VFloat l1; VFloat l5; VFloat l15])
    /\ entry_is is_int_or_none "cpu_count" sys.
Proof.
  destruct (status_system_field_kinds no_cpu_count_host _ eq_refl)
    as (sys & l1 & l5 & l15 & H).
  eexists. exists sys, l1, l5, l15. split; [reflexivity|exact H].
Defined.

(** X10: In every response of [/api/status], fips_enabled and stig_installed
    are booleans (the answer of [get_fips_status] and the existence of the
    SCAP content path), crypto_policy is a non-empty string, and
    bootc_status is null or a non-empty string. *)
Theorem status_security_field_kinds (e : env) (r : response) :
  status e = Ok r ->
  field2 "security" "fips_enabled" (json r) = Some (VBool (get_fips_status e))
  /\ field2 "security" "stig_installed" (json r)
     = Some (VBool (path_exists e ssg_path))
  /\ (exists p, field2 "security" "crypto_policy" (json r) = Some p
                /\ is_nonempty_str p = true)
  /\ (exists b, field "bootc_status" (json r) = Some b
                /\ is_none_or_nonempty_str b = true).
Proof.
  rewrite status_eq, get_system_info_eq.
  destruct (getloadavg e) as [[[l1 l5] l15]|x]; [|discriminate].
  intros H. injection H as <-.
  split; [reflexivity|]. split; [reflexivity|]. split.
  - destruct (py_or_Unknown_nonempty e crypto_cmd) as (s & Hs & Hne & _).
    eexists. split; [reflexivity|].
    change (get_crypto_policy e) with (py_or (run_command e crypto_cmd) Unknown).
    rewrite Hs.
    destruct s; [congruence|reflexivity].
  - eexists. split; [reflexivity|].
    unfold get_bootc_status.
    destruct (run_command_shape e (lit "bootc status --json 2>/dev/null"))
      as [Hn|[out [_ Hr]]].
    + rewrite Hn. reflexivity.
    + rewrite Hr. destruct (strip out); reflexivity.
Qed.

Lemma status_security_field_kinds_witness :
  exists r,
  status blank_probes_host = Ok r
  /\ field2 "security" "fips_enabled" (json r)
     = Some (VBool (get_fips_status blank_probes_host))
  /\ field2 "security" "stig_installed" (json r)
     = Some (VBool (path_exists blank_probes_host ssg_path))
  /\ (exists p, field2 "security" "crypto_policy" (json r) = Some p
                /\ is_nonempty_str p = true)
  /\ (exists b, field "bootc_status" (json r) = Some b
                /\ is_none_or_nonempty_str b = true).
Proof.
  eexists. split; [reflexivity|].
  apply (status_security_field_kinds blank_probes_host). reflexivity.
Defined.

(** ** One probe, one field *)

Lemma run_command_with_proc_other (e : env) (c cmd : str) (b : proc_behaviour) :
  str_eqb cmd c = false ->
  run_command (with_proc e c b) cmd = run_command e cmd.
Proof.
  intros H. unfold run_command, subprocess_run. simpl. now rewrite H.
Qed.

Lemma get_system_info_with_proc_other (e : env) (c : str) (b : proc_behaviour) :
  str_eqb uptime_cmd c = false ->
  get_system_info (with_proc e c b) = get_system_info e.
Proof.
  intros H. rewrite !get_system_info_eq.
  now rewrite (run_command_with_proc_other e c uptime_cmd b H).
Qed.

(** Entries compared key by key: equal values under every key but the one
    that [Hk] excludes. *)
Ltac same_entries Hk :=
  cbn [dict_get];
  repeat match goal with
  | |- context [str_eqb ?k ?c] =>
      let E := fresh "E" in
      destruct (str_eqb k c) eqn:E;
      [ first [ reflexivity
              | apply str_eqb_eq in E; exfalso; apply Hk; exact E ] | ]
  end;
  reflexivity.

(** X11: Whatever the boot-management command does, the status handler ends the
    same way and every field of its response but [bootc_status] is the
    same. *)
Theorem status_isolates_bootc_probe (e : env) (b : proc_behaviour) :
  status_agree (same_but "bootc_status")
    (status e) (status (with_proc e bootc_cmd b)).
Proof.
  rewrite !status_eq.
  rewrite (get_system_info_with_proc_other e bootc_cmd b eq_refl).
  unfold get_crypto_policy.
  rewrite (run_command_with_proc_other e bootc_cmd
             (lit "update-crypto-policies --show") b eq_refl).
  destruct (get_system_info e) as [info|x]; [|reflexivity].
  split; [reflexivity|]. split; [reflexivity|].
  intros k Hk. same_entries Hk.
Qed.

(** X12: Whatever the policy command does, the status handler ends the same way
    and every field of its response but [security.crypto_policy] is the
    same. *)
Theorem status_isolates_crypto_probe (e : env) (b : proc_behaviour) :
  status_agree (same_but_in "security" "crypto_policy")
    (status e) (status (with_proc e crypto_cmd b)).
Proof.
  rewrite !status_eq.
  rewrite (get_system_info_with_proc_other e crypto_cmd b eq_refl).
  unfold get_bootc_status.
  rewrite (run_command_with_proc_other e crypto_cmd
             (lit "bootc status --json 2>/dev/null") b eq_refl).
  destruct (get_system_info e) as [info|x]; [|reflexivity].
  split; [reflexivity|]. split.
  - split; [reflexivity|]. intros k Hk. same_entries Hk.
  - do 2 eexists. split; [reflexivity|]. split; [reflexivity|].
    split; [reflexivity|]. intros k Hk. same_entries Hk.
Qed.

(** X13: Whatever the uptime command does, the status handler ends the same way
    and every field of its response but [system.uptime] is the same. *)
Theorem status_isolates_uptime_probe (e : env) (b : proc_behaviour) :
  status_agree (same_but_in "system" "uptime")
    (status e) (status (with_proc e uptime_cmd b)).
Proof.
  rewrite !status_eq, !get_system_info_eq.
  unfold get_bootc_status, get_crypto_policy.
  rewrite (run_command_with_proc_other e uptime_cmd
             (lit "bootc status --json 2>/dev/null") b eq_refl).
  rewrite (run_command_with_proc_other e uptime_cmd
             (lit "update-crypto-policies --show") b eq_refl).
  change (getloadavg (with_proc e uptime_cmd b)) with (getloadavg e).
  destruct (getloadavg e) as [[[l1 l5] l15]|x]; [|reflexivity].
  split; [reflexivity|]. split.
  - split; [reflexivity|]. intros k Hk. same_entries Hk.
  - do 2 eexists. split; [reflexivity|]. split; [reflexivity|].
    split; [reflexivity|]. intros k Hk. same_entries Hk.
Qed.

(** X14: Whatever reading the file of the FIPS flag gives, content or error, the
    status handler ends the same way and every field of its response but
    [security.fips_enabled] is the same. *)
Theorem status_isolates_fips_file (e : env) (x : result str) :
  status_agree (same_but_in "security" "fips_enabled")
    (status e) (status (with_file e fips_file x)).
Proof.
  rewrite !status_eq.
  change (get_system_info (with_file e fips_file x)) with (get_system_info e).
  change (get_crypto_policy (with_file e fips_file x))
    with (get_crypto_policy e).
  change (get_bootc_status (with_file e fips_file x))
    with (get_bootc_status e).
  destruct (get_system_info e) as [info|y]; [|reflexivity].
  split; [reflexivity|]. split.
  - split; [reflexivity|]. intros k Hk. same_entries Hk.
  - do 2 eexists. split; [reflexivity|]. split; [reflexivity|].
    split; [reflexivity|]. intros k Hk. same_entries Hk.
Qed.

(** X15: Whether the SCAP content path exists or not, the status handler ends
    the same way and every field of its response but
    [security.stig_installed] is the same; that field is the boolean
    [present]. *)
Theorem status_isolates_stig_path (e : env) (present : bool) :
  get_stig_info (with_path e ssg_path present) = present
  /\ status_agree (same_but_in "security" "stig_installed")
       (status e) (status (with_path e ssg_path present)).
Proof.
  split; [reflexivity|].
  rewrite !status_eq.
  change (get_system_info (with_path e ssg_path present))
    with (get_system_info e).
  change (get_crypto_policy (with_path e ssg_path present))
    with (get_crypto_policy e).
  change (get_bootc_status (with_path e ssg_path present))
    with (get_bootc_status e).
  change (get_fips_status (with_path e ssg_path present))
    with (get_fips_status e).
  destruct (get_system_info e) as [info|y]; [|reflexivity].
  split; [reflexivity|]. split.
  - split; [reflexivity|]. intros k Hk. same_entries Hk.
  - do 2 eexists. split; [reflexivity|]. split; [reflexivity|].
    split; [reflexivity|]. intros k Hk. same_entries Hk.
Qed.
